(** * gateway/keystore_yaml.go: the YAML-file gateway key store

    A shallow embedding of [GatewayYamlFileStore] and of its operations
    ([LoadGatewayYamlFileStore], [Gateways], the five lookups, [AddGateway]
    and [load]), with the file system as explicit state and the external
    packages (yaml.v3, encoding/hex, go-ethereum/crypto) as an interface. *)

From Stdlib Require Import String Bool Arith Lia Eqdep_dec List.
From Stdlib Require Import Strings.Byte.
Import ListNotations.

Set Implicit Arguments.

(** ** Bytes, slices and fixed-size arrays *)

Definition bytes := list byte.

(** [bytes.Equal(a, b)]: same length and same bytes. *)
Fixpoint bytes_Equal (a b : bytes) : bool :=
  match a, b with
  | [], [] => true
  | x :: a', y :: b' => Byte.eqb x y && bytes_Equal a' b'
  | _, _ => false
  end.

(** A Go array [[n]byte]: a value of exactly [n] bytes. *)
Record Array (n : nat) : Type := mkArray {
  slice_of : bytes;                      (* a[:] *)
  array_len : length slice_of = n
}.

Arguments mkArray {n} _ _.
Arguments slice_of {n} _.

(** [a == b] on arrays compares the elements. *)
Definition array_eqb {n} (a b : Array n) : bool :=
  bytes_Equal (slice_of a) (slice_of b).

(** lorawan.EUI64 is [[8]byte]. *)
Definition EUI64 := Array 8.

(** ** Errors *)

Inductive Errno := ENOENT | EACCES | ENOSPC.

(** Error values: the package's sentinels (four distinct values declared
    in another file of the package), [os.ErrNotExist], the
    [*fs.PathError] of a failed system call, an error made by an external
    package, and [fmt.Errorf] without and with a wrapped [%w] operand. *)
Inductive error :=
| ErrNotFound
| ErrInvalidGatewayID
| ErrAlreadyExists
| ErrStoreNotExists
| os_ErrNotExist
| PathError (e : Errno)
| LibError (msg : string)
| Errorf (msg : string)                  (* fmt.Errorf("msg") *)
| Wrapf (msg : string) (err : error).    (* fmt.Errorf("msg: %w", err) *)

Definition Errno_eqb (a b : Errno) : bool :=
  match a, b with
  | ENOENT, ENOENT | EACCES, EACCES | ENOSPC, ENOSPC => true
  | _, _ => false
  end.

Fixpoint error_eqb (a b : error) : bool :=
  match a, b with
  | ErrNotFound, ErrNotFound => true
  | ErrInvalidGatewayID, ErrInvalidGatewayID => true
  | ErrAlreadyExists, ErrAlreadyExists => true
  | ErrStoreNotExists, ErrStoreNotExists => true
  | os_ErrNotExist, os_ErrNotExist => true
  | PathError x, PathError y => Errno_eqb x y
  | LibError s, LibError t => String.eqb s t
  | Errorf s, Errorf t => String.eqb s t
  | Wrapf s x, Wrapf t y => String.eqb s t && error_eqb x y
  | _, _ => false
  end.

(** [errors.Is(err, target)]: [err] or an error in its [%w] chain is
    [target]; a path error with [ENOENT] is [os.ErrNotExist]. *)
Fixpoint errors_Is (err target : error) : bool :=
  error_eqb err target
  || match err with
     | PathError ENOENT => error_eqb target os_ErrNotExist
     | Wrapf _ w => errors_Is w target
     | _ => false
     end.

(** A Go result pair [(v, err)] with exactly one side set. *)
Inductive result (A : Type) :=
| Ok (v : A)
| Err (e : error).

Arguments Ok {A} _.
Arguments Err {A} _.

(** ** External packages

    What the store consumes from yaml.v3, encoding/hex and
    go-ethereum/crypto, and the identity derivation behind [NewGateway]. *)

(** [gatewayYAML]: one persisted entry. *)
Record gatewayYAML := mkGatewayYAML {
  yaml_LocalID : EUI64;                  (* `yaml:"local_id"` *)
  yaml_PrivateKey : string               (* `yaml:"private_key"` *)
}.

(** [*ecdsa.PrivateKey] *)
Class KeyType := { PrivateKey : Type }.

Class Externals {kt : KeyType} := {
  (** [yaml.Marshal] of a [[]gatewayYAML] *)
  yaml_Marshal : list gatewayYAML -> result bytes;
  (** [yaml.Unmarshal] into a nil [[]gatewayYAML] *)
  yaml_Unmarshal : bytes -> result (list gatewayYAML);
  (** [hex.EncodeToString(crypto.FromECDSA(key))] *)
  hex_FromECDSA : PrivateKey -> string;
  (** [crypto.HexToECDSA] *)
  crypto_HexToECDSA : string -> result PrivateKey;
  (** the identity derivation: network ID and compressed public key *)
  DeriveIdentity : PrivateKey -> result (EUI64 * bytes)
}.

Section Store.

Context {kt : KeyType} {ext : Externals}.

(** ** Gateways *)

(** Modelled from the spec: the type [Gateway] is declared in another file
    of the package. These are the fields that the store reads, with the
    types at which it compares them, and the private key of the spec's
    credential record. *)
Record Gateway := mkGateway {
  LocalGatewayID : EUI64;
  NetworkGatewayID : EUI64;
  gwPrivateKey : PrivateKey;
  CompressedPublicKeyBytes : bytes
}.

(** Modelled from the spec: [NewGateway] is declared in another file of the
    package. It keeps the local ID and the key and derives the network ID
    and the compressed public key from the key; a failed derivation is its
    error. *)
Definition NewGateway (localID : EUI64) (key : PrivateKey) : result Gateway :=
  match DeriveIdentity key with
  | Ok (netID, compressed) =>
      Ok {| LocalGatewayID := localID;
            NetworkGatewayID := netID;
            gwPrivateKey := key;
            CompressedPublicKeyBytes := compressed |}
  | Err e => Err e
  end.

(** ** The store and its lookups *)

Record GatewayYamlFileStore := mkStore {
  Path : string;
  gateways : list Gateway
}.

Definition Gateways (store : GatewayYamlFileStore) : list Gateway :=
  gateways store.

(** [for _, gw := range store.gateways { if cond(gw) { return gw, nil } }
    return nil, ErrNotFound] *)
Definition scan (cond : Gateway -> bool) (gws : list Gateway)
  : result Gateway :=
  match find cond gws with
  | Some gw => Ok gw
  | None => Err ErrNotFound
  end.

Definition GatewayByThingsIxID (store : GatewayYamlFileStore) (id : Array 32)
  : result Gateway :=
  scan (fun gw => bytes_Equal (CompressedPublicKeyBytes gw) (slice_of id))
       (gateways store).

Definition GatewayByLocalID (store : GatewayYamlFileStore) (id : EUI64)
  : result Gateway :=
  scan (fun gw => array_eqb (LocalGatewayID gw) id) (gateways store).

Definition GatewayByLocalIDBytes (store : GatewayYamlFileStore) (id : bytes)
  : result Gateway :=
  match Nat.eq_dec (length id) 8 with
  | left len8 => GatewayByLocalID store (mkArray id len8)
  | right _ => Err ErrInvalidGatewayID
  end.

Definition GatewayByNetworkID (store : GatewayYamlFileStore) (id : EUI64)
  : result Gateway :=
  scan (fun gw => array_eqb (NetworkGatewayID gw) id) (gateways store).

Definition GatewayByNetworkIDBytes (store : GatewayYamlFileStore) (id : bytes)
  : result Gateway :=
  match Nat.eq_dec (length id) 8 with
  | left len8 => GatewayByNetworkID store (mkArray id len8)
  | right _ => Err ErrInvalidGatewayID
  end.

(** ** The file system

    One regular file per path, with the permission bits that decide whether
    it can be read or appended to; whether a missing file can be created;
    and the free space, which bounds a write. *)

Record File := mkFile {
  file_data : bytes;
  file_readable : bool;
  file_writable : bool
}.

Record FileSystem := mkFS {
  fs_files : string -> option File;
  fs_can_create : bool;
  fs_space : option nat                  (* None: unbounded *)
}.

(** [os.ReadFile(path)]: the data and the error. *)
Definition os_ReadFile (fs : FileSystem) (path : string)
  : bytes * option error :=
  match fs_files fs path with
  | None => ([], Some (PathError ENOENT))
  | Some f =>
      if file_readable f then (file_data f, None)
      else ([], Some (PathError EACCES))
  end.

Definition set_file (fs : FileSystem) (path : string) (f : File) : FileSystem :=
  {| fs_files := fun p => if String.eqb p path then Some f else fs_files fs p;
     fs_can_create := fs_can_create fs;
     fs_space := fs_space fs |}.

(** [os.OpenFile(path, os.O_APPEND|os.O_CREATE|os.O_WRONLY, 0600)]: the file
    system afterwards (the file is created when it was missing) and the
    error. *)
Definition os_OpenFile_append (fs : FileSystem) (path : string)
  : FileSystem * option error :=
  match fs_files fs path with
  | Some f =>
      if file_writable f then (fs, None) else (fs, Some (PathError EACCES))
  | None =>
      if fs_can_create fs
      then (set_file fs path {| file_data := [];
                                file_readable := true;
                                file_writable := true |}, None)
      else (fs, Some (PathError EACCES))
  end.

Definition set_space (fs : FileSystem) (space : option nat) : FileSystem :=
  {| fs_files := fs_files fs;
     fs_can_create := fs_can_create fs;
     fs_space := space |}.

Definition append_data (f : File) (w : bytes) : File :=
  {| file_data := file_data f ++ w;
     file_readable := file_readable f;
     file_writable := file_writable f |}.

(** [f.Write(b)] on a file opened with [O_APPEND]: the bytes go to the end
    of the file; with too little space only the bytes that fit are written
    and the write fails. *)
Definition file_Write (fs : FileSystem) (path : string) (b : bytes)
  : FileSystem * option error :=
  match fs_files fs path with
  | None => (fs, Some (PathError ENOENT))
  | Some f =>
      match fs_space fs with
      | None => (set_file fs path (append_data f b), None)
      | Some free =>
          if length b <=? free
          then (set_space (set_file fs path (append_data f b))
                          (Some (free - length b)), None)
          else (set_space (set_file fs path (append_data f (firstn free b)))
                          (Some 0), Some (PathError ENOSPC))
      end
  end.

(** ** load *)

(** The loop of [load]: every entry's key is decoded and its gateway made,
    in order; the first failure ends the load. *)
Fixpoint load_loop (entries : list gatewayYAML) : result (list Gateway) :=
  match entries with
  | [] => Ok []
  | gw :: rest =>
      match crypto_HexToECDSA (yaml_PrivateKey gw) with
      | Err _ =>
          Err (Errorf "could not decode private key from gateway store")
      | Ok key =>
          match NewGateway (yaml_LocalID gw) key with
          | Err err =>
              Err (Wrapf "unable to load gateway from store" err)
          | Ok g =>
              match load_loop rest with
              | Ok loaded => Ok (g :: loaded)
              | Err e => Err e
              end
          end
      end
  end.

(** [load] from the unmarshalling on: the list that [store.gateways] is
    assigned, or the error. *)
Definition decode (raw : bytes) : result (list Gateway) :=
  match yaml_Unmarshal raw with
  | Err err => Err (Wrapf "unable to load gateway store" err)
  | Ok entries => load_loop entries
  end.

(** [load], given what [os.ReadFile] returned: the error (or nil) and the
    store afterwards. *)
Definition load_from (read : bytes * option error)
                     (store : GatewayYamlFileStore)
  : option error * GatewayYamlFileStore :=
  let (unknownGatewayListRaw, err) := read in
  let rest (_ : unit) :=
    match decode unknownGatewayListRaw with
    | Err e => (Some e, store)
    | Ok loaded => (None, {| Path := Path store; gateways := loaded |})
    end in
  match err with
  | Some e =>
      if negb (errors_Is e os_ErrNotExist) then (Some ErrStoreNotExists, store)
      else if length unknownGatewayListRaw =? 0 then (None, store)
      else rest tt
  | None => rest tt
  end.

Definition load (store : GatewayYamlFileStore) (fs : FileSystem)
  : option error * GatewayYamlFileStore :=
  load_from (os_ReadFile fs (Path store)) store.

Definition LoadGatewayYamlFileStore (path : string) (fs : FileSystem)
  : result GatewayYamlFileStore :=
  let store := {| Path := path; gateways := [] |} in
  match load store fs with
  | (Some err, _) => Err err
  | (None, store') => Ok store'
  end.

(** ** AddGateway *)

(** The [switch] on the result of the lookup at the head of [AddGateway]. *)
Inductive precheck :=
| Proceed                                (* errors.Is(err, ErrNotFound) *)
| Exists                                 (* err == nil *)
| Propagate (err : error).               (* default *)

Definition AddGateway_precheck (store : GatewayYamlFileStore) (localID : EUI64)
  : precheck :=
  match GatewayByLocalID store localID with
  | Err err => if errors_Is err ErrNotFound then Proceed else Propagate err
  | Ok _ => Exists
  end.

(** The error (or nil), the store and the file system afterwards. The
    deferred [f.Close()] changes neither. *)
Definition AddGateway (store : GatewayYamlFileStore) (fs : FileSystem)
                      (localID : EUI64) (key : PrivateKey)
  : option error * GatewayYamlFileStore * FileSystem :=
  match AddGateway_precheck store localID with
  | Exists => (Some ErrAlreadyExists, store, fs)
  | Propagate err => (Some err, store, fs)
  | Proceed =>
      match yaml_Marshal [ {| yaml_LocalID := localID;
                              yaml_PrivateKey := hex_FromECDSA key |} ] with
      | Err err =>
          (Some (Wrapf "unable to encode gateway store" err), store, fs)
      | Ok encoded =>
          match os_OpenFile_append fs (Path store) with
          | (fs1, Some err) => (Some err, store, fs1)
          | (fs1, None) =>
              match file_Write fs1 (Path store) encoded with
              | (fs2, Some err) => (Some err, store, fs2)
              | (fs2, None) =>
                  let (err, store') := load store fs2 in (err, store', fs2)
              end
          end
      end
  end.

End Store.

Arguments Gateway {kt}.
Arguments GatewayYamlFileStore {kt}.

(** ** A reference instance of the external packages

    Keys are their 32-byte scalars, written in hex as [crypto.FromECDSA] and
    [hex.EncodeToString] do; the document is the block sequence that
    [yaml.Marshal] prints for a [[]gatewayYAML], two lines per entry. The
    identity derivation is a stand-in for the curve arithmetic. It serves to
    run the store on concrete files. *)

Module Reference.

Definition hexdigits : bytes := list_byte_of_string "0123456789abcdef".

Definition hex_digit (n : nat) : byte := nth n hexdigits x30.

Fixpoint index_of (b : byte) (l : bytes) : option nat :=
  match l with
  | [] => None
  | x :: l' => if Byte.eqb x b then Some 0 else option_map S (index_of b l')
  end.

(** [hex.EncodeToString] *)
Definition hex_Encode (src : bytes) : bytes :=
  flat_map (fun b => [hex_digit (Byte.to_nat b / 16);
                      hex_digit (Byte.to_nat b mod 16)]) src.

(** [hex.DecodeString] *)
Fixpoint hex_Decode (s : bytes) : option bytes :=
  match s with
  | [] => Some []
  | hi :: lo :: rest =>
      match index_of hi hexdigits, index_of lo hexdigits, hex_Decode rest with
      | Some a, Some b, Some r =>
          option_map (fun x => x :: r) (Byte.of_nat (16 * a + b))
      | _, _, _ => None
      end
  | [_] => None
  end.

Definition array_of_slice (n : nat) (s : bytes) : option (Array n) :=
  match Nat.eq_dec (length s) n with
  | left len => Some (mkArray s len)
  | right _ => None
  end.

Definition key_local : bytes := list_byte_of_string "- local_id: ".
Definition key_private : bytes := list_byte_of_string "  private_key: ".
Definition newline : byte := x0a.

Definition marshal_entry (gw : gatewayYAML) : bytes :=
  key_local ++ hex_Encode (slice_of (yaml_LocalID gw)) ++ [newline]
  ++ key_private ++ list_byte_of_string (yaml_PrivateKey gw) ++ [newline].

Definition Marshal (gws : list gatewayYAML) : result bytes :=
  Ok (flat_map marshal_entry gws).

(** The lines of a document, each without its line feed. *)
Fixpoint lines (cur : bytes) (doc : bytes) : list bytes :=
  match doc with
  | [] => match cur with [] => [] | _ => [rev cur] end
  | b :: doc' =>
      if Byte.eqb b newline then rev cur :: lines [] doc'
      else lines (b :: cur) doc'
  end.

Fixpoint strip_prefix (p s : bytes) : option bytes :=
  match p, s with
  | [], _ => Some s
  | x :: p', y :: s' => if Byte.eqb x y then strip_prefix p' s' else None
  | _ :: _, [] => None
  end.

Definition unmarshal_entry (l1 l2 : bytes) : option gatewayYAML :=
  match strip_prefix key_local l1, strip_prefix key_private l2 with
  | Some id, Some key =>
      match hex_Decode id with
      | Some raw =>
          option_map (fun a => {| yaml_LocalID := a;
                                  yaml_PrivateKey := string_of_list_byte key |})
                     (array_of_slice 8 raw)
      | None => None
      end
  | _, _ => None
  end.

Fixpoint unmarshal_lines (ls : list bytes) : result (list gatewayYAML) :=
  match ls with
  | [] => Ok []
  | l1 :: l2 :: rest =>
      match unmarshal_entry l1 l2, unmarshal_lines rest with
      | Some gw, Ok gws => Ok (gw :: gws)
      | Some _, Err e => Err e
      | None, _ => Err (LibError "yaml: unmarshal errors")
      end
  | [_] => Err (LibError "yaml: unmarshal errors")
  end.

Definition Unmarshal (doc : bytes) : result (list gatewayYAML) :=
  unmarshal_lines (lines [] doc).

(** [crypto.HexToECDSA]: 64 hex digits. *)
Definition HexToECDSA (s : string) : result bytes :=
  match hex_Decode (list_byte_of_string s) with
  | Some d =>
      if length d =? 32 then Ok d
      else Err (LibError "invalid length, need 256 bits")
  | None => Err (LibError "invalid hex character for private key")
  end.

Definition Derive (key : bytes) : result (EUI64 * bytes) :=
  match array_of_slice 8 (firstn 8 (rev key)) with
  | Some netID => Ok (netID, rev key)
  | None => Err (LibError "invalid key")
  end.

#[export] Instance key_type : KeyType := {| PrivateKey := bytes |}.

#[export] Instance externals : Externals := {|
  yaml_Marshal := Marshal;
  yaml_Unmarshal := Unmarshal;
  hex_FromECDSA := fun key => string_of_list_byte (hex_Encode key);
  crypto_HexToECDSA := HexToECDSA;
  DeriveIdentity := Derive
|}.

(** Concrete identifiers, keys, files and stores. *)

Definition eui (b : byte) : EUI64 := @mkArray 8 (repeat b 8) eq_refl.
Definition thingsix (b : byte) : Array 32 := @mkArray 32 (repeat b 32) eq_refl.
Definition key (b : byte) : bytes := repeat b 32.

Definition path : string := "gateways.yaml".

Definition no_files : FileSystem :=
  {| fs_files := fun _ => None; fs_can_create := true; fs_space := None |}.

Definition with_file (data : bytes) : FileSystem :=
  set_file no_files path
    {| file_data := data; file_readable := true; file_writable := true |}.

Definition gw (id k : byte) : Gateway :=
  {| LocalGatewayID := eui id;
     NetworkGatewayID := @mkArray 8 (repeat k 8) eq_refl;
     gwPrivateKey := key k;
     CompressedPublicKeyBytes := repeat k 32 |}.

Definition store_of (gws : list Gateway) : GatewayYamlFileStore :=
  {| Path := path; gateways := gws |}.

(** A file with one entry, and one whose key is not hex. *)
Definition one_entry : bytes :=
  list_byte_of_string "- local_id: 0101010101010101
  private_key: 0707070707070707070707070707070707070707070707070707070707070707
".

Definition bad_key : bytes :=
  list_byte_of_string "- local_id: 0101010101010101
  private_key: not-a-key
".

(** [AddGateway] of (01.., 07..) on the empty store with no file, and then
    of (02.., 09..). *)
Definition added1 := AddGateway (store_of []) no_files (eui x01) (key x07).
Definition store1 : GatewayYamlFileStore := snd (fst added1).
Definition fs1 : FileSystem := snd added1.

Definition added2 := AddGateway store1 fs1 (eui x02) (key x09).
Definition store2 : GatewayYamlFileStore := snd (fst added2).
Definition fs2 : FileSystem := snd added2.


(** A good entry, then one whose key is not hex, then a good one. *)
Definition good_then_bad : bytes := one_entry ++ bad_key ++ one_entry.

(** A key of 31 bytes, which [HexToECDSA] refuses, and its [AddGateway] on
    the empty store with no file. *)
Definition short_key : bytes := repeat x07 31.
Definition failed := AddGateway (store_of []) no_files (eui x01) short_key.
Definition failed_error : option error := fst (fst failed).
Definition failed_store : GatewayYamlFileStore := snd (fst failed).
Definition failed_fs : FileSystem := snd failed.

End Reference.

(** ** An instance with keys on two curves

    [crypto.FromECDSA] writes the scalar of the key and not its curve, and
    [crypto.HexToECDSA] makes a key on secp256k1: a key on another curve
    comes back as another key, with another public key. The codecs are
    those of the reference instance; the identity derivation is a stand-in
    that depends on the curve, as a public key does. *)

Module Curves.

Inductive curve := S256 | P256.

Record ecdsaKey := mkKey {
  key_Curve : curve;
  key_D : bytes
}.

#[export] Instance curve_key_type : KeyType := {| PrivateKey := ecdsaKey |}.


Definition HexToECDSA (s : string) : result ecdsaKey :=
  match Reference.HexToECDSA s with
  | Ok d => Ok {| key_Curve := S256; key_D := d |}
  | Err e => Err e
  end.

Definition Derive (key : ecdsaKey) : result (EUI64 * bytes) :=
  match key_Curve key with
  | S256 => Reference.Derive (key_D key)
  | P256 => Reference.Derive (rev (key_D key))
  end.





End Curves.

(** ** The lookups of the spec, by kind of identifier *)

Section Lookup.

Context {kt : KeyType} {ext : Externals}.

Inductive identifier :=
| ThingsIxID (id : Array 32)
| LocalID (id : EUI64)
| NetworkID (id : EUI64).

(** The record carries the identifier. *)
Definition matches (ident : identifier) (gw : Gateway) : Prop :=
  match ident with
  | ThingsIxID id => CompressedPublicKeyBytes gw = slice_of id
  | LocalID id => LocalGatewayID gw = id
  | NetworkID id => NetworkGatewayID gw = id
  end.

Definition Lookup (store : GatewayYamlFileStore) (ident : identifier)
  : result Gateway :=
  match ident with
  | ThingsIxID id => GatewayByThingsIxID store id
  | LocalID id => GatewayByLocalID store id
  | NetworkID id => GatewayByNetworkID store id
  end.

(** The condition that the scan of [Lookup] tests. *)
Definition cond_of (ident : identifier) (gw : Gateway) : bool :=
  match ident with
  | ThingsIxID id => bytes_Equal (CompressedPublicKeyBytes gw) (slice_of id)
  | LocalID id => array_eqb (LocalGatewayID gw) id
  | NetworkID id => array_eqb (NetworkGatewayID gw) id
  end.

(** The file's data, none when the file is missing. *)
Definition contents (fs : FileSystem) (path : string) : bytes :=
  match fs_files fs path with
  | Some f => file_data f
  | None => []
  end.

(** The entries that the file at [path] holds. *)
Definition persisted (fs : FileSystem) (path : string)
                     (entries : list gatewayYAML) : Prop :=
  match fs_files fs path with
  | Some f => yaml_Unmarshal (file_data f) = Ok entries
  | None => entries = []
  end.

(** The store's list is the one that its file loads to. *)
Definition in_sync (store : GatewayYamlFileStore) (fs : FileSystem) : Prop :=
  exists entries,
    persisted fs (Path store) entries /\
    load_loop entries = Ok (gateways store).

(** The YAML codec on the file at [path]: with the encoding of [[gw]] at
    its end, the file holds the entries that it held, followed by [gw]. *)
Definition yaml_appends (fs : FileSystem) (path : string)
                        (gw : gatewayYAML) : Prop :=
  forall entries encoded,
    persisted fs path entries ->
    yaml_Marshal [gw] = Ok encoded ->
    yaml_Unmarshal (contents fs path ++ encoded) = Ok (entries ++ [gw]).

(** The entry that [AddGateway] writes. *)
Definition entry_of (localID : EUI64) (key : PrivateKey) : gatewayYAML :=
  {| yaml_LocalID := localID; yaml_PrivateKey := hex_FromECDSA key |}.

(** The outcomes of [load] as the spec words them: success with the list
    replaced by the one decoded from the data read, or an error with the
    store as it was. *)
Definition load_replaces_or_fails (read : bytes * option error)
                                  (store : GatewayYamlFileStore) : Prop :=
  let (err, store') := load_from read store in
  (err = None /\ decode (fst read) = Ok (gateways store')) \/
  (err <> None /\ store' = store).



(** One iteration of the loop of [load]: the key of the entry decodes and
    its gateway is made. *)
Definition entry_loads (entry : gatewayYAML) (g : Gateway) : Prop :=
  exists key,
    crypto_HexToECDSA (yaml_PrivateKey entry) = Ok key /\
    NewGateway (yaml_LocalID entry) key = Ok g.

(** The errors that [load] returns. *)
Definition reload_error (err : error) : Prop :=
  err = ErrStoreNotExists \/
  (exists cause, err = Wrapf "unable to load gateway store" cause) \/
  err = Errorf "could not decode private key from gateway store" \/
  (exists cause, err = Wrapf "unable to load gateway from store" cause).

End Lookup.

(** ** Equality tests *)

Lemma bytes_Equal_eq (a b : bytes) : bytes_Equal a b = true <-> a = b.
Proof.
  revert b; induction a as [|x a IH]; intros [|y b]; simpl;
    try (split; [discriminate | discriminate]); try tauto.
  rewrite andb_true_iff, IH. split.
  - intros [Hxy ->]. apply Byte.byte_dec_bl in Hxy. now subst.
  - intros [= -> ->]. split; [now apply Byte.byte_dec_lb | reflexivity].
Qed.

Lemma array_ext {n} (a b : Array n) : slice_of a = slice_of b -> a = b.
Proof.
  destruct a as [sa la], b as [sb lb]; simpl; intros <-.
  f_equal. apply UIP_dec, Nat.eq_dec.
Qed.

Lemma array_eqb_eq {n} (a b : Array n) : array_eqb a b = true <-> a = b.
Proof.
  unfold array_eqb. rewrite bytes_Equal_eq. split.
  - apply array_ext.
  - now intros ->.
Qed.


Lemma array_eqb_neq {n} (a b : Array n) : array_eqb a b = false <-> a <> b.
Proof.
  rewrite <- array_eqb_eq. destruct (array_eqb a b); split; congruence.
Qed.


Section LookupFacts.

Context {kt : KeyType} {ext : Externals}.

Lemma cond_of_matches (ident : identifier) (gw : Gateway) :
  cond_of ident gw = true <-> matches ident gw.
Proof.
  destruct ident; simpl; [apply bytes_Equal_eq | apply array_eqb_eq ..].
Qed.

Lemma Lookup_scan (store : GatewayYamlFileStore) (ident : identifier) :
  Lookup store ident = scan (cond_of ident) (gateways store).
Proof. destruct ident; reflexivity. Qed.

Lemma scan_cases (cond : Gateway -> bool) (gws : list Gateway) :
  (exists gw, scan cond gws = Ok gw /\ In gw gws /\ cond gw = true) \/
  (scan cond gws = Err ErrNotFound /\ forall gw, In gw gws -> cond gw = false).
Proof.
  unfold scan. destruct (find cond gws) as [gw|] eqn:Hfind.
  - left. exists gw. apply find_some in Hfind. tauto.
  - right. split; [reflexivity|]. intros gw Hin.
    now apply (find_none cond gws Hfind).
Qed.

Lemma scan_none (cond : Gateway -> bool) (gws : list Gateway) :
  (forall gw, In gw gws -> cond gw = false) -> scan cond gws = Err ErrNotFound.
Proof.
  intros Hnone. destruct (scan_cases cond gws) as [(gw & _ & Hin & Hc)|[H _]].
  - rewrite (Hnone gw Hin) in Hc. discriminate.
  - exact H.
Qed.

Lemma scan_first (cond : Gateway -> bool) (before after : list Gateway)
                 (gw : Gateway) :
  (forall x, In x before -> cond x = false) ->
  cond gw = true ->
  scan cond (before ++ gw :: after) = Ok gw.
Proof.
  unfold scan. induction before as [|x before IH]; simpl; intros Hb Hgw.
  - now rewrite Hgw.
  - rewrite (Hb x (or_introl eq_refl)). apply IH; auto.
Qed.

End LookupFacts.

(** ** The file system *)

Lemma set_file_same (fs : FileSystem) (path : string) (f : File) :
  fs_files (set_file fs path f) path = Some f.
Proof. simpl. now rewrite String.eqb_refl. Qed.

Lemma set_file_other (fs : FileSystem) (path p : string) (f : File) :
  p <> path -> fs_files (set_file fs path f) p = fs_files fs p.
Proof.
  intros Hp. simpl.
  destruct (String.eqb_spec p path); [contradiction | reflexivity].
Qed.

(** A successful open leaves a readable or freshly created file with the
    data it had, and the other files as they were. *)
Lemma os_OpenFile_append_ok (fs fs1 : FileSystem) (path : string) :
  os_OpenFile_append fs path = (fs1, None) ->
  exists f,
    fs_files fs1 path = Some f /\
    file_data f = match fs_files fs path with
                  | Some f0 => file_data f0
                  | None => []
                  end /\
    (forall p, p <> path -> fs_files fs1 p = fs_files fs p).
Proof.
  unfold os_OpenFile_append. destruct (fs_files fs path) as [f0|] eqn:Hf.
  - destruct (file_writable f0); intros [= <-]. exists f0. now rewrite Hf.
  - destruct (fs_can_create fs); intros [= <-].
    eexists. split; [apply set_file_same|]. split; [reflexivity|].
    intros p Hp. now apply set_file_other.
Qed.

(** A successful write puts all the bytes at the end of the file. *)
Lemma file_Write_ok (fs fs2 : FileSystem) (path : string) (b : bytes) :
  file_Write fs path b = (fs2, None) ->
  exists f,
    fs_files fs path = Some f /\
    fs_files fs2 path = Some (append_data f b) /\
    (forall p, p <> path -> fs_files fs2 p = fs_files fs p).
Proof.
  unfold file_Write.
  destruct (fs_files fs path) as [f|] eqn:Hf; [|discriminate].
  destruct (fs_space fs) as [free|].
  - destruct (length b <=? free); intros [= <-]. exists f.
    split; [reflexivity|]. split; [apply set_file_same|].
    intros p Hp. simpl.
    destruct (String.eqb_spec p path); [contradiction | reflexivity].
  - intros [= <-]. exists f. split; [reflexivity|].
    split; [apply set_file_same|]. intros p Hp. now apply set_file_other.
Qed.

(** A write, failed or not, keeps what the file held as a prefix. *)
Lemma file_Write_prefix (fs fs2 : FileSystem) (path : string) (b : bytes)
                        (err : option error) (f : File) :
  file_Write fs path b = (fs2, err) ->
  fs_files fs path = Some f ->
  exists f2 w,
    fs_files fs2 path = Some f2 /\ file_data f2 = file_data f ++ w.
Proof.
  unfold file_Write. intros Hw Hf. rewrite Hf in Hw.
  destruct (fs_space fs) as [free|].
  - destruct (length b <=? free); injection Hw as <- _;
      eexists; eexists; (split; [apply set_file_same | reflexivity]).
  - injection Hw as <- _. eexists; eexists.
    split; [apply set_file_same | reflexivity].
Qed.

Section StoreFacts.

Context {kt : KeyType} {ext : Externals}.

(** ** NewGateway and the loop of load *)

Lemma NewGateway_ok (localID : EUI64) (key : PrivateKey) (g : Gateway) :
  NewGateway localID key = Ok g ->
  LocalGatewayID g = localID /\
  gwPrivateKey g = key /\
  DeriveIdentity key = Ok (NetworkGatewayID g, CompressedPublicKeyBytes g).
Proof.
  unfold NewGateway.
  destruct (DeriveIdentity key) as [[netID c]|e]; [|discriminate].
  intros [= <-]. simpl. auto.
Qed.

Lemma load_loop_cons (gw : gatewayYAML) (rest : list gatewayYAML)
                     (loaded : list Gateway) :
  load_loop (gw :: rest) = Ok loaded ->
  exists key g tl,
    crypto_HexToECDSA (yaml_PrivateKey gw) = Ok key /\
    NewGateway (yaml_LocalID gw) key = Ok g /\
    load_loop rest = Ok tl /\
    loaded = g :: tl.
Proof.
  cbn [load_loop].
  destruct (crypto_HexToECDSA (yaml_PrivateKey gw)) as [key|]; [|discriminate].
  destruct (NewGateway (yaml_LocalID gw) key) as [g|] eqn:Hg; [|discriminate].
  destruct (load_loop rest) as [tl|]; [|discriminate].
  intros [= <-]. exists key, g, tl. auto.
Qed.

Lemma load_loop_app (entries1 entries2 : list gatewayYAML)
                    (loaded : list Gateway) :
  load_loop (entries1 ++ entries2) = Ok loaded ->
  exists l1 l2,
    load_loop entries1 = Ok l1 /\ load_loop entries2 = Ok l2 /\
    loaded = l1 ++ l2.
Proof.
  revert loaded. induction entries1 as [|gw entries1 IH]; intros loaded H.
  - exists [], loaded. auto.
  - rewrite <- app_comm_cons in H.
    apply load_loop_cons in H as (key & g & tl & Hk & Hg & Htl & ->).
    destruct (IH tl Htl) as (l1 & l2 & H1 & H2 & ->).
    exists (g :: l1), l2. cbn [load_loop app]. now rewrite Hk, Hg, H1.
Qed.

(** The loaded gateways carry the local IDs of the entries, in order. *)
Lemma load_loop_LocalIDs (entries : list gatewayYAML) (loaded : list Gateway) :
  load_loop entries = Ok loaded ->
  map LocalGatewayID loaded = map yaml_LocalID entries.
Proof.
  revert loaded. induction entries as [|gw entries IH]; intros loaded H.
  - injection H as <-. reflexivity.
  - apply load_loop_cons in H as (key & g & tl & _ & Hg & Htl & ->).
    apply NewGateway_ok in Hg as [Hid _]. simpl. now rewrite Hid, (IH tl Htl).
Qed.

End StoreFacts.

Section AddGatewayFacts.

Context {kt : KeyType} {ext : Externals}.

(** ** load and AddGateway, step by step *)

(** A load that succeeds on an existing file has read and decoded it. *)
Lemma load_ok_decoded (store store1 : GatewayYamlFileStore) (fs : FileSystem)
                      (f : File) :
  fs_files fs (Path store) = Some f ->
  load store fs = (None, store1) ->
  file_readable f = true /\
  Path store1 = Path store /\
  decode (file_data f) = Ok (gateways store1).
Proof.
  unfold load, os_ReadFile. intros ->.
  destruct (file_readable f); simpl; [|discriminate].
  destruct (decode (file_data f)) as [loaded|e]; [|discriminate].
  intros [= <-]. auto.
Qed.

(** A load with no file at the path succeeds and leaves the store alone. *)
Lemma load_missing_file (store : GatewayYamlFileStore) (fs : FileSystem) :
  fs_files fs (Path store) = None ->
  load store fs = (None, store).
Proof. unfold load, os_ReadFile. now intros ->. Qed.

(** The lookups return a record or [ErrNotFound]. *)
Lemma GatewayByLocalID_cases (store : GatewayYamlFileStore) (id : EUI64) :
  (exists gw, GatewayByLocalID store id = Ok gw /\ In gw (gateways store)
              /\ LocalGatewayID gw = id) \/
  (GatewayByLocalID store id = Err ErrNotFound /\
   forall gw, In gw (gateways store) -> LocalGatewayID gw <> id).
Proof.
  unfold GatewayByLocalID.
  destruct (scan_cases (fun gw => array_eqb (LocalGatewayID gw) id)
                       (gateways store))
    as [(gw & H & Hin & Hc)|[H Hnone]].
  - left. exists gw. apply array_eqb_eq in Hc. auto.
  - right. split; [exact H|]. intros gw Hin. apply array_eqb_neq. auto.
Qed.

(** What a successful [AddGateway] has done. *)
Lemma AddGateway_ok (store store1 : GatewayYamlFileStore) (fs fs1 : FileSystem)
                    (localID : EUI64) (key : PrivateKey) :
  AddGateway store fs localID key = (None, store1, fs1) ->
  exists encoded f1,
    (forall gw, In gw (gateways store) -> LocalGatewayID gw <> localID) /\
    yaml_Marshal [entry_of localID key] = Ok encoded /\
    fs_files fs1 (Path store) = Some f1 /\
    file_data f1 = contents fs (Path store) ++ encoded /\
    (forall p, p <> Path store -> fs_files fs1 p = fs_files fs p) /\
    Path store1 = Path store /\
    decode (file_data f1) = Ok (gateways store1).
Proof.
  unfold AddGateway, AddGateway_precheck.
  destruct (GatewayByLocalID_cases store localID)
    as [(gw & -> & _)|[-> Hnone]]; [discriminate|].
  cbn [errors_Is error_eqb orb]. fold (entry_of localID key).
  destruct (yaml_Marshal [entry_of localID key]) as [encoded|e];
    [|discriminate].
  destruct (os_OpenFile_append fs (Path store)) as [fs' [e|]] eqn:Hopen;
    [discriminate|].
  destruct (file_Write fs' (Path store) encoded) as [fs2 [e|]] eqn:Hwrite;
    [discriminate|].
  destruct (load store fs2) as [err store'] eqn:Hload. intros [= -> -> ->].
  apply os_OpenFile_append_ok in Hopen as (f & Hf & Hdata & Hothers).
  apply file_Write_ok in Hwrite as (f' & Hf' & Hf2 & Hothers2).
  rewrite Hf in Hf'. injection Hf' as <-.
  destruct (load_ok_decoded _ _ Hf2 Hload) as (_ & Hpath & Hdec).
  exists encoded, (append_data f encoded).
  repeat split; auto.
  - simpl. unfold contents. now rewrite Hdata.
  - intros p Hp. now rewrite Hothers2, Hothers.
Qed.

(** The store invariant: construction and every successful [AddGateway]
    leave the list that the file loads to. *)
Lemma LoadGatewayYamlFileStore_in_sync (path : string) (fs : FileSystem)
                                       (store : GatewayYamlFileStore) :
  LoadGatewayYamlFileStore path fs = Ok store -> in_sync store fs.
Proof.
  unfold LoadGatewayYamlFileStore, in_sync, persisted.
  destruct (fs_files fs path) as [f|] eqn:Hf.
  - destruct (load {| Path := path; gateways := [] |} fs)
      as [[e|] store'] eqn:Hload; [discriminate|].
    intros [= ->].
    destruct (load_ok_decoded {| Path := path; gateways := [] |} fs Hf Hload)
      as (_ & Hpath & Hdec).
    rewrite Hpath. cbn [Path]. rewrite Hf. unfold decode in Hdec.
    destruct (yaml_Unmarshal (file_data f)) as [entries|]; [|discriminate].
    now exists entries.
  - rewrite load_missing_file by exact Hf. intros [= <-].
    exists []. cbn [Path]. now rewrite Hf.
Qed.

Lemma AddGateway_in_sync (store store1 : GatewayYamlFileStore)
                         (fs fs1 : FileSystem) (localID : EUI64)
                         (key : PrivateKey) :
  AddGateway store fs localID key = (None, store1, fs1) -> in_sync store1 fs1.
Proof.
  intros Hadd.
  apply AddGateway_ok in Hadd
    as (encoded & f1 & _ & _ & Hf1 & _ & _ & Hpath & Hdec).
  unfold in_sync, persisted. rewrite Hpath, Hf1. unfold decode in Hdec.
  destruct (yaml_Unmarshal (file_data f1)) as [entries|]; [|discriminate].
  now exists entries.
Qed.

(** On a store in sync with its file, with the codec appending the entry, a
    successful [AddGateway] leaves the old list followed by the gateway
    loaded from the new entry. *)
Lemma AddGateway_ok_list (store store1 : GatewayYamlFileStore)
                         (fs fs1 : FileSystem) (localID : EUI64)
                         (key : PrivateKey) :
  in_sync store fs ->
  yaml_appends fs (Path store) (entry_of localID key) ->
  AddGateway store fs localID key = (None, store1, fs1) ->
  exists key' g,
    crypto_HexToECDSA (hex_FromECDSA key) = Ok key' /\
    NewGateway localID key' = Ok g /\
    gateways store1 = gateways store ++ [g] /\
    (forall gw, In gw (gateways store) -> LocalGatewayID gw <> localID) /\
    Path store1 = Path store.
Proof.
  intros (entries & Hpers & Hsync) Happ Hadd.
  apply AddGateway_ok in Hadd
    as (encoded & f1 & Hnone & Henc & Hf1 & Hdata & _ & Hpath & Hdec).
  specialize (Happ entries encoded Hpers Henc). rewrite <- Hdata in Happ.
  unfold decode in Hdec. rewrite Happ in Hdec.
  destruct (load_loop_app _ _ Hdec) as (l1 & l2 & H1 & H2 & Hl).
  rewrite Hsync in H1. injection H1 as <-.
  apply load_loop_cons in H2 as (key' & g & tl & Hk & Hg & Htl & ->).
  injection Htl as <-.
  exists key', g. repeat split; auto.
Qed.


End AddGatewayFacts.

(** ** The properties of the store *)

Section Properties.

Context {kt : KeyType} {ext : Externals}.

(** C1, as amended: for every store and everything that the read of the
    file can return, [load] has one of three outcomes. It returns an error
    and the store is as it was; or it returns no error and the list is the
    one decoded from the data read; or the read reported a missing file with
    no data, and [load] returns no error with the store as it was. The list
    is never a part of the decoded list. *)
Theorem load_outcomes (read : bytes * option error)
                      (store : GatewayYamlFileStore) :
  let (err, store') := load_from read store in
  (err <> None /\ store' = store) \/
  (err = None /\ Path store' = Path store /\
   decode (fst read) = Ok (gateways store')) \/
  (err = None /\ store' = store /\ fst read = [] /\
   exists e, snd read = Some e /\ errors_Is e os_ErrNotExist = true).
Proof.
  destruct read as [raw [e|]]; unfold load_from.
  - destruct (errors_Is e os_ErrNotExist) eqn:His; cbn [negb].
    + destruct raw as [|b raw]; cbn [length Nat.eqb].
      * right; right. repeat split. now exists e.
      * destruct (decode (b :: raw)) as [loaded|e'] eqn:Hdec.
        -- right; left. simpl. now rewrite Hdec.
        -- left. split; [discriminate | reflexivity].
    + left. split; [discriminate | reflexivity].
  - destruct (decode raw) as [loaded|e'] eqn:Hdec.
    + right; left. simpl. now rewrite Hdec.
    + left. split; [discriminate | reflexivity].
Qed.

(** C4: a lookup by a byte buffer returns [ErrInvalidGatewayID] when the
    buffer is not 8 bytes long, whatever it and the store hold, and with 8
    bytes it returns what the lookup by the array of those bytes returns;
    for the local and for the network ID. *)
Theorem GatewayByIDBytes_length (store : GatewayYamlFileStore) (id : bytes) :
  (length id <> 8 ->
   GatewayByLocalIDBytes store id = Err ErrInvalidGatewayID /\
   GatewayByNetworkIDBytes store id = Err ErrInvalidGatewayID) /\
  (forall len8 : length id = 8,
   GatewayByLocalIDBytes store id = GatewayByLocalID store (mkArray id len8) /\
   GatewayByNetworkIDBytes store id
   = GatewayByNetworkID store (mkArray id len8)).
Proof.
  unfold GatewayByLocalIDBytes, GatewayByNetworkIDBytes.
  destruct (Nat.eq_dec (length id) 8) as [len|nlen]; split.
  - intros H. contradiction.
  - intros len8. now rewrite (UIP_dec Nat.eq_dec len len8).
  - auto.
  - intros len8. contradiction.
Qed.

(** C5: when no record of the store carries the identifier, of any of the
    three kinds, the lookup returns [ErrNotFound]. *)
Theorem Lookup_absent (store : GatewayYamlFileStore) (ident : identifier) :
  (forall gw, In gw (Gateways store) -> ~ matches ident gw) ->
  Lookup store ident = Err ErrNotFound.
Proof.
  intros Hnone. rewrite Lookup_scan. apply scan_none. intros gw Hin.
  destruct (cond_of ident gw) eqn:Hc; [|reflexivity].
  apply cond_of_matches in Hc. now destruct (Hnone gw Hin).
Qed.

(** C9: the lookup returns the first record, in the order of the list, that
    carries the identifier, whatever follows it (records with the same
    identifier too); for the three kinds of identifier. *)
Theorem Lookup_first_match (path : string) (before after : list Gateway)
                           (gw : Gateway) (ident : identifier) :
  (forall x, In x before -> ~ matches ident x) ->
  matches ident gw ->
  Lookup {| Path := path; gateways := before ++ gw :: after |} ident = Ok gw.
Proof.
  intros Hbefore Hgw. rewrite Lookup_scan. apply scan_first.
  - intros x Hin. destruct (cond_of ident x) eqn:Hc; [|reflexivity].
    apply cond_of_matches in Hc. now destruct (Hbefore x Hin).
  - now apply cond_of_matches.
Qed.

(** C10: each of the three lookups by a fixed-width identifier returns a
    record of the store, or [ErrNotFound] and no other error; so the switch
    of [AddGateway] on the result of its lookup never takes the default
    branch, the one that returns the lookup's error. *)
Theorem Lookup_record_or_NotFound (store : GatewayYamlFileStore) :
  (forall ident,
     (exists gw, Lookup store ident = Ok gw /\ In gw (Gateways store)) \/
     Lookup store ident = Err ErrNotFound) /\
  (forall localID err, AddGateway_precheck store localID <> Propagate err).
Proof.
  split.
  - intros ident. rewrite Lookup_scan.
    destruct (scan_cases (cond_of ident) (gateways store))
      as [(gw & H & Hin & _)|[H _]]; [left; exists gw|right]; auto.
  - intros localID err. unfold AddGateway_precheck.
    destruct (GatewayByLocalID_cases store localID)
      as [(gw & -> & _)|[-> _]]; discriminate.
Qed.

(** C7: when the file is missing, or is there, can be read and is empty
    (and the YAML codec decodes the empty document to no entries), the store
    is constructed without an error and [Gateways] is empty. *)
Theorem LoadGatewayYamlFileStore_no_data (path : string) (fs : FileSystem) :
  fs_files fs path = None \/
  ((exists f, fs_files fs path = Some f /\ file_data f = [] /\
              file_readable f = true) /\
   yaml_Unmarshal [] = Ok []) ->
  exists store,
    LoadGatewayYamlFileStore path fs = Ok store /\
    Gateways store = [] /\ Path store = path.
Proof.
  unfold LoadGatewayYamlFileStore, load, os_ReadFile. cbn [Path].
  intros [-> | [(f & -> & Hdata & ->) Hempty]].
  - eexists. simpl. auto.
  - rewrite Hdata. unfold load_from, decode. rewrite Hempty. simpl.
    eexists. auto.
Qed.

(** C8: after a successful [AddGateway] the file holds what it held before
    (nothing when it was missing) followed by the encoding of the new entry,
    and the other files are as they were. *)
Theorem AddGateway_appends (store store1 : GatewayYamlFileStore)
                           (fs fs1 : FileSystem) (localID : EUI64)
                           (key : PrivateKey) :
  AddGateway store fs localID key = (None, store1, fs1) ->
  exists encoded,
    yaml_Marshal [entry_of localID key] = Ok encoded /\
    fs_files fs1 (Path store) <> None /\
    contents fs1 (Path store) = contents fs (Path store) ++ encoded /\
    (forall p, p <> Path store -> fs_files fs1 p = fs_files fs p).
Proof.
  intros Hadd.
  apply AddGateway_ok in Hadd
    as (encoded & f1 & _ & Henc & Hf1 & Hdata & Hothers & _).
  exists encoded. unfold contents at 1. rewrite Hf1.
  repeat split; auto. discriminate.
Qed.



(** C6: from a store with no records, in sync with its file, with the YAML
    codec appending each new entry to the file's, two [AddGateway] calls
    that succeed leave exactly two records in [Gateways]: the one loaded
    from the first call's entry and then the one loaded from the second
    call's, with the local IDs of the calls (which differ). *)
Theorem AddGateway_two_in_order (store0 store1 store2 : GatewayYamlFileStore)
                                (fs0 fs1 fs2 : FileSystem)
                                (id1 id2 : EUI64) (key1 key2 : PrivateKey) :
  in_sync store0 fs0 ->
  Gateways store0 = [] ->
  yaml_appends fs0 (Path store0) (entry_of id1 key1) ->
  yaml_appends fs1 (Path store1) (entry_of id2 key2) ->
  AddGateway store0 fs0 id1 key1 = (None, store1, fs1) ->
  AddGateway store1 fs1 id2 key2 = (None, store2, fs2) ->
  exists g1 g2,
    Gateways store2 = [g1; g2] /\
    LocalGatewayID g1 = id1 /\ LocalGatewayID g2 = id2 /\ id1 <> id2 /\
    load_loop [entry_of id1 key1; entry_of id2 key2] = Ok [g1; g2].
Proof.
  intros Hsync0 Hempty Happ1 Happ2 Hadd1 Hadd2. unfold Gateways in *.
  destruct (@AddGateway_ok_list _ _ _ _ _ _ _ _ Hsync0 Happ1 Hadd1)
    as (k1 & g1 & Hk1 & Hg1 & Hlist1 & _).
  pose proof (AddGateway_in_sync _ _ _ _ Hadd1) as Hsync1.
  destruct (@AddGateway_ok_list _ _ _ _ _ _ _ _ Hsync1 Happ2 Hadd2)
    as (k2 & g2 & Hk2 & Hg2 & Hlist2 & Hnone2 & _).
  rewrite Hempty in Hlist1. cbn [app] in Hlist1.
  rewrite Hlist1 in Hlist2, Hnone2. cbn [app] in Hlist2.
  exists g1, g2.
  destruct (@NewGateway_ok _ _ _ _ _ Hg1) as [Hid1 _].
  destruct (@NewGateway_ok _ _ _ _ _ Hg2) as [Hid2 _].
  repeat split; auto.
  - rewrite <- Hid1. apply Hnone2. now left.
  - cbn [load_loop entry_of yaml_PrivateKey yaml_LocalID].
    now rewrite Hk1, Hg1, Hk2, Hg2.
Qed.

End Properties.

(** ** The properties on the reference instance *)

Section Examples.

Import Reference.

Lemma added1_ok : added1 = (None, store1, fs1).
Proof. vm_compute. reflexivity. Defined.

Lemma added2_ok : added2 = (None, store2, fs2).
Proof. vm_compute. reflexivity. Defined.

Lemma in_sync_empty : in_sync (store_of []) no_files.
Proof. exists []. split; reflexivity. Defined.

Lemma appends_first :
  yaml_appends no_files path (entry_of (eui x01) (key x07)).
Proof.
  intros entries encoded Hp H. cbn in Hp. subst entries.
  vm_compute in H. injection H as <-. vm_compute. reflexivity.
Defined.

Lemma appends_second :
  yaml_appends fs1 path (entry_of (eui x02) (key x09)).
Proof.
  intros entries encoded Hp H. vm_compute in Hp. injection Hp as <-.
  vm_compute in H. injection H as <-. vm_compute. reflexivity.
Defined.

(** C1, as it was stated, fails: with no file at the path, [load] on a store
    of one gateway returns no error and the list is still that gateway, not
    the empty list that the data read (none) decodes to. *)
Lemma load_missing_file_keeps_list :
  ~ load_replaces_or_fails (os_ReadFile no_files path)
                           (store_of [gw x01 x07]).
Proof.
  unfold load_replaces_or_fails. cbn [os_ReadFile no_files fs_files].
  cbv beta iota delta [load_from errors_Is error_eqb negb orb length Nat.eqb].
  intros [[_ H] | [H _]].
  - vm_compute in H. discriminate H.
  - now apply H.
Qed.







(** C4 on the reference instance: a buffer of 3 bytes and one of 8. *)
Lemma GatewayByIDBytes_length_witness :
  (GatewayByLocalIDBytes store1 [x01; x01; x01] = Err ErrInvalidGatewayID /\
   GatewayByNetworkIDBytes store1 [x01; x01; x01] = Err ErrInvalidGatewayID) /\
  (GatewayByLocalIDBytes store1 (repeat x01 8)
   = GatewayByLocalID store1 (eui x01) /\
   GatewayByNetworkIDBytes store1 (repeat x01 8)
   = GatewayByNetworkID store1 (eui x01)).
Proof.
  split.
  - apply (proj1 (GatewayByIDBytes_length store1 [x01; x01; x01])).
    simpl. lia.
  - exact (proj2 (GatewayByIDBytes_length store1 (repeat x01 8)) eq_refl).
Defined.

(** C5 on the reference instance: identifiers that the one record of the
    store does not carry. *)
Lemma Lookup_absent_witness :
  Lookup (store_of [gw x01 x07]) (ThingsIxID (thingsix x08))
  = Err ErrNotFound /\
  Lookup (store_of [gw x01 x07]) (LocalID (eui x02)) = Err ErrNotFound /\
  Lookup (store_of [gw x01 x07]) (NetworkID (eui x01)) = Err ErrNotFound.
Proof.
  split; [|split]; apply Lookup_absent;
    intros g [<- | []] H; vm_compute in H; discriminate H.
Defined.

(** C6 on the reference instance: 01.. and then 02.. on the empty store. *)
Lemma AddGateway_two_in_order_witness :
  exists g1 g2,
    Gateways store2 = [g1; g2] /\
    LocalGatewayID g1 = eui x01 /\ LocalGatewayID g2 = eui x02 /\
    eui x01 <> eui x02 /\
    load_loop [entry_of (eui x01) (key x07); entry_of (eui x02) (key x09)]
    = Ok [g1; g2].
Proof.
  apply (@AddGateway_two_in_order key_type externals (store_of []) store1 store2
           no_files fs1 fs2 (eui x01) (eui x02) (key x07) (key x09)).
  - exact in_sync_empty.
  - reflexivity.
  - exact appends_first.
  - exact appends_second.
  - exact added1_ok.
  - exact added2_ok.
Defined.

(** C7 on the reference instance: no file, and an empty file. *)
Lemma LoadGatewayYamlFileStore_no_data_witness :
  (exists store,
     LoadGatewayYamlFileStore path no_files = Ok store /\
     Gateways store = [] /\ Path store = path) /\
  (exists store,
     LoadGatewayYamlFileStore path (with_file []) = Ok store /\
     Gateways store = [] /\ Path store = path).
Proof.
  split; apply LoadGatewayYamlFileStore_no_data.
  - left. reflexivity.
  - right. split; [|reflexivity].
    eexists. split; [reflexivity|]. split; reflexivity.
Defined.

(** C8 on the reference instance: the file after the second [AddGateway] is
    the file after the first followed by the second entry. *)
Lemma AddGateway_appends_witness :
  exists encoded,
    yaml_Marshal [entry_of (eui x02) (key x09)] = Ok encoded /\
    fs_files fs2 (Path store1) <> None /\
    contents fs2 (Path store1) = contents fs1 (Path store1) ++ encoded /\
    (forall p, p <> Path store1 -> fs_files fs2 p = fs_files fs1 p).
Proof.
  apply (@AddGateway_appends key_type externals store1 store2 fs1 fs2
           (eui x02) (key x09)).
  exact added2_ok.
Defined.

(** C9 on the reference instance: two records with the local ID 02.. after
    one with 01..; the first of the two is returned. *)
Lemma Lookup_first_match_witness :
  Lookup (store_of [gw x01 x07; gw x02 x07; gw x02 x09]) (LocalID (eui x02))
  = Ok (gw x02 x07).
Proof.
  apply (Lookup_first_match path [gw x01 x07] [gw x02 x09] (gw x02 x07)
           (LocalID (eui x02))).
  - intros g [<- | []] H. vm_compute in H. discriminate H.
  - reflexivity.
Defined.

(** *** The store on concrete files *)

(** A file with one entry: the store holds its gateway, found by its local
    ID and by no other. *)
Example load_one_entry :
  exists store,
    LoadGatewayYamlFileStore path (with_file one_entry) = Ok store /\
    Gateways store = [gw x01 x07] /\
    GatewayByLocalID store (eui x01) = Ok (gw x01 x07) /\
    GatewayByLocalID store (eui x02) = Err ErrNotFound /\
    GatewayByNetworkID store (eui x07) = Ok (gw x01 x07) /\
    GatewayByThingsIxID store (thingsix x07) = Ok (gw x01 x07).
Proof. eexists. vm_compute. repeat split. Qed.

(** A private key that is not hex: no store. *)
Example load_bad_key :
  LoadGatewayYamlFileStore path (with_file bad_key)
  = Err (Errorf "could not decode private key from gateway store").
Proof. vm_compute. reflexivity. Qed.

(** A file that cannot be read: [ErrStoreNotExists]. *)
Example load_unreadable :
  LoadGatewayYamlFileStore path
    (set_file no_files path {| file_data := one_entry;
                               file_readable := false;
                               file_writable := true |})
  = Err ErrStoreNotExists.
Proof. vm_compute. reflexivity. Qed.

(** No space for the whole entry: [AddGateway] returns the error of the
    write, the list is as it was, and the file has the bytes that fitted. *)
Example AddGateway_no_space :
  let '(err, store, fs) :=
    AddGateway (store_of []) (set_space no_files (Some 5))
               (eui x01) (key x07) in
  err = Some (PathError ENOSPC) /\ Gateways store = [] /\
  contents fs path = list_byte_of_string "- loc".
Proof. vm_compute. repeat split. Qed.

(** The file is missing and cannot be created: nothing changes. *)
Example AddGateway_cannot_create :
  let '(err, store, fs) :=
    AddGateway (store_of [])
               {| fs_files := fun _ => None; fs_can_create := false;
                  fs_space := None |}
               (eui x01) (key x07) in
  err = Some (PathError EACCES) /\ Gateways store = [] /\
  fs_files fs path = None.
Proof. vm_compute. repeat split. Qed.

End Examples.

(** ** Further facts on the scans, the loop and the file system *)

Section MoreFacts.

Context {kt : KeyType} {ext : Externals}.

Lemma scan_Ok_split (cond : Gateway -> bool) (gws : list Gateway)
                    (gw : Gateway) :
  scan cond gws = Ok gw ->
  exists before after,
    gws = before ++ gw :: after /\
    (forall x, In x before -> cond x = false) /\
    cond gw = true.
Proof.
  unfold scan. induction gws as [|x gws IH]; cbn [find]; [discriminate|].
  destruct (cond x) eqn:Hx.
  - intros [= <-]. exists [], gws. repeat split; auto. intros y [].
  - intros H. destruct (IH H) as (before & after & -> & Hb & Hg).
    exists (x :: before), after. repeat split; auto.
    intros y [<- | Hin]; auto.
Qed.

Lemma scan_app_l (cond : Gateway -> bool) (gws more : list Gateway)
                 (gw : Gateway) :
  scan cond gws = Ok gw -> scan cond (gws ++ more) = Ok gw.
Proof.
  intros H. apply scan_Ok_split in H as (before & after & -> & Hb & Hg).
  rewrite <- app_assoc, <- app_comm_cons. now apply scan_first.
Qed.

Lemma load_loop_Forall2 (entries : list gatewayYAML) (loaded : list Gateway) :
  load_loop entries = Ok loaded <-> Forall2 entry_loads entries loaded.
Proof.
  split.
  - revert loaded. induction entries as [|gw entries IH]; intros loaded H.
    + injection H as <-. constructor.
    + apply load_loop_cons in H as (key & g & tl & Hk & Hg & Htl & ->).
      constructor; [now exists key | now apply IH].
  - induction 1 as [|entry g entries loaded (key & Hk & Hg) _ IH].
    + reflexivity.
    + cbn [load_loop]. now rewrite Hk, Hg, IH.
Qed.

(** The error of the loop is one of its two. *)
Lemma load_loop_error (entries : list gatewayYAML) (err : error) :
  load_loop entries = Err err ->
  err = Errorf "could not decode private key from gateway store" \/
  exists cause, err = Wrapf "unable to load gateway from store" cause.
Proof.
  induction entries as [|gw entries IH]; cbn [load_loop]; [discriminate|].
  destruct (crypto_HexToECDSA (yaml_PrivateKey gw)) as [key|e].
  - destruct (NewGateway (yaml_LocalID gw) key) as [g|e].
    + destruct (load_loop entries) as [tl|e]; [discriminate|].
      intros [= <-]. now apply IH.
    + intros [= <-]. right. now exists e.
  - intros [= <-]. now left.
Qed.

(** The loop stops at the first entry whose key does not decode. *)
Lemma load_loop_first_bad_key (good rest : list gatewayYAML)
                              (bad : gatewayYAML) (loaded : list Gateway)
                              (cause : error) :
  load_loop good = Ok loaded ->
  crypto_HexToECDSA (yaml_PrivateKey bad) = Err cause ->
  load_loop (good ++ bad :: rest)
  = Err (Errorf "could not decode private key from gateway store").
Proof.
  revert loaded. induction good as [|gw good IH]; intros loaded Hgood Hbad.
  - cbn [app load_loop]. now rewrite Hbad.
  - apply load_loop_cons in Hgood as (key & g & tl & Hk & Hg & Htl & ->).
    rewrite <- app_comm_cons. cbn [load_loop].
    now rewrite Hk, Hg, (IH tl Htl Hbad).
Qed.

(** A failed [load] returns one of its errors and leaves the store; its
    error does not depend on the store. *)
Lemma load_from_error (read : bytes * option error)
                      (store store' : GatewayYamlFileStore) (err : error) :
  load_from read store = (Some err, store') ->
  store' = store /\ reload_error err /\
  forall other, load_from read other = (Some err, other).
Proof.
  destruct read as [raw e]. unfold load_from.
  assert (Hrest : forall s s' : GatewayYamlFileStore,
            match decode raw with
            | Err e0 => (Some e0, s)
            | Ok loaded => (None, {| Path := Path s; gateways := loaded |})
            end = (Some err, s') ->
            s' = s /\ reload_error err /\ decode raw = Err err).
  { intros s s'. unfold decode.
    destruct (yaml_Unmarshal raw) as [entries|e0].
    - destruct (load_loop entries) as [l|e0] eqn:Hl; [discriminate|].
      intros [= <- <-]. repeat split; auto.
      destruct (load_loop_error _ Hl) as [-> | [c ->]]; unfold reload_error.
      + auto.
      + right; right; right. now exists c.
    - intros [= <- <-]. repeat split; auto.
      right; left. now exists e0. }
  destruct e as [e1|].
  - destruct (errors_Is e1 os_ErrNotExist); cbn [negb].
    + destruct (length raw =? 0); [discriminate|].
      intros H. destruct (Hrest _ _ H) as (-> & Hr & Hd).
      repeat split; auto. intros other. now rewrite Hd.
    + intros [= <- <-]. repeat split; auto. now left.
  - intros H. destruct (Hrest _ _ H) as (-> & Hr & Hd).
    repeat split; auto. intros other. now rewrite Hd.
Qed.

Lemma reload_error_not_others (err : error) :
  reload_error err ->
  err <> ErrAlreadyExists /\
  (forall e, err <> PathError e) /\
  (forall cause, err <> Wrapf "unable to encode gateway store" cause).
Proof.
  intros [-> | [[c ->] | [-> | [c ->]]]]; repeat split; intros; discriminate.
Qed.

(** An open, failed or not, changes no data. *)
Lemma os_OpenFile_append_any (fs fs1 : FileSystem) (path : string)
                             (err : option error) :
  os_OpenFile_append fs path = (fs1, err) ->
  contents fs1 path = contents fs path /\
  (forall p, p <> path -> fs_files fs1 p = fs_files fs p) /\
  (forall e, err = Some e -> e = PathError EACCES /\ fs1 = fs).
Proof.
  unfold os_OpenFile_append, contents.
  destruct (fs_files fs path) as [f0|] eqn:Hf.
  - destruct (file_writable f0); intros [= <- <-]; rewrite Hf;
      (split; [reflexivity|]); (split; [reflexivity|]).
    + discriminate.
    + intros e [= <-]. auto.
  - destruct (fs_can_create fs); intros [= <- <-].
    + rewrite set_file_same. split; [reflexivity|]. split.
      * intros p Hp. now apply set_file_other.
      * discriminate.
    + rewrite Hf. split; [reflexivity|]. split; [reflexivity|].
      intros e [= <-]. auto.
Qed.

(** A write, failed or not, puts a prefix of the bytes at the end of the
    file and touches no other file; its error is a path error. *)
Lemma file_Write_any (fs fs2 : FileSystem) (path : string) (b : bytes)
                     (err : option error) :
  file_Write fs path b = (fs2, err) ->
  (exists n, contents fs2 path = contents fs path ++ firstn n b) /\
  (forall p, p <> path -> fs_files fs2 p = fs_files fs p) /\
  (forall e, err = Some e -> exists no, e = PathError no).
Proof.
  unfold file_Write, contents.
  destruct (fs_files fs path) as [f|] eqn:Hf.
  - destruct (fs_space fs) as [free|].
    + destruct (length b <=? free); intros [= <- <-]; cbn [set_space fs_files];
        rewrite set_file_same; (split; [|split]).
      * exists (length b). now rewrite firstn_all.
      * intros p Hp. now apply set_file_other.
      * discriminate.
      * now exists free.
      * intros p Hp. now apply set_file_other.
      * intros e [= <-]. now exists ENOSPC.
    + intros [= <- <-]. rewrite set_file_same. split; [|split].
      * exists (length b). now rewrite firstn_all.
      * intros p Hp. now apply set_file_other.
      * discriminate.
  - intros [= <- <-]. rewrite Hf. split; [|split]; auto.
    + exists 0. reflexivity.
    + intros e [= <-]. now exists ENOENT.
Qed.

End MoreFacts.

(** ** Further properties of the store *)

Section MoreProperties.

Context {kt : KeyType} {ext : Externals}.

(** X1: a lookup returns a record exactly when the list splits into
    records that do not carry the identifier, that record, which carries it,
    and a rest; for the three kinds of identifier. *)
Theorem Lookup_Ok_iff (store : GatewayYamlFileStore) (ident : identifier)
                      (gw : Gateway) :
  Lookup store ident = Ok gw <->
  exists before after,
    Gateways store = before ++ gw :: after /\
    (forall x, In x before -> ~ matches ident x) /\
    matches ident gw.
Proof.
  rewrite Lookup_scan. unfold Gateways. split.
  - intros H. apply scan_Ok_split in H as (before & after & Hl & Hb & Hg).
    exists before, after. repeat split; auto.
    + intros x Hin Hm. apply cond_of_matches in Hm.
      rewrite (Hb x Hin) in Hm. discriminate.
    + now apply cond_of_matches.
  - intros (before & after & -> & Hb & Hg). apply scan_first.
    + intros x Hin. destruct (cond_of ident x) eqn:Hc; [|reflexivity].
      apply cond_of_matches in Hc. now destruct (Hb x Hin).
    + now apply cond_of_matches.
Qed.

(** X2: when a lookup returns an error, the error is [ErrNotFound] and no
    record of the store carries the identifier. *)
Theorem Lookup_Err_none (store : GatewayYamlFileStore) (ident : identifier)
                        (err : error) :
  Lookup store ident = Err err ->
  err = ErrNotFound /\
  forall gw, In gw (Gateways store) -> ~ matches ident gw.
Proof.
  rewrite Lookup_scan. intros H.
  destruct (scan_cases (cond_of ident) (gateways store))
    as [(gw & Hok & _)|[Hnf Hnone]].
  - rewrite Hok in H. discriminate.
  - rewrite Hnf in H. injection H as <-. split; [reflexivity|].
    intros gw Hin Hm. apply cond_of_matches in Hm.
    unfold Gateways in Hin. rewrite (Hnone gw Hin) in Hm. discriminate.
Qed.

(** X3: a store constructed on an existing file holds one gateway for each
    entry of the file, in the order of the file: the gateway made from the
    entry's local ID and decoded key. Entries with the same local ID are all
    kept. *)
Theorem LoadGatewayYamlFileStore_entries (path : string) (fs : FileSystem)
                                         (store : GatewayYamlFileStore)
                                         (f : File) :
  fs_files fs path = Some f ->
  LoadGatewayYamlFileStore path fs = Ok store ->
  exists entries,
    yaml_Unmarshal (file_data f) = Ok entries /\
    Forall2 entry_loads entries (Gateways store) /\
    map LocalGatewayID (Gateways store) = map yaml_LocalID entries.
Proof.
  intros Hf. unfold LoadGatewayYamlFileStore.
  destruct (load {| Path := path; gateways := [] |} fs)
    as [[e|] store'] eqn:Hload; [discriminate|].
  intros [= ->].
  destruct (load_ok_decoded {| Path := path; gateways := [] |} fs Hf Hload)
    as (_ & _ & Hdec).
  unfold decode in Hdec.
  destruct (yaml_Unmarshal (file_data f)) as [entries|]; [|discriminate].
  exists entries. split; [reflexivity|]. split.
  - now apply load_loop_Forall2.
  - now apply load_loop_LocalIDs.
Qed.

(** X4: construction fails with the key error at the first entry whose key
    does not decode, when the entries before it load, whatever the entries
    after it are; the error of [HexToECDSA] itself is not kept. *)
Theorem LoadGatewayYamlFileStore_first_bad_key
    (path : string) (fs : FileSystem) (f : File)
    (good rest : list gatewayYAML) (bad : gatewayYAML)
    (loaded : list Gateway) (cause : error) :
  fs_files fs path = Some f ->
  file_readable f = true ->
  yaml_Unmarshal (file_data f) = Ok (good ++ bad :: rest) ->
  load_loop good = Ok loaded ->
  crypto_HexToECDSA (yaml_PrivateKey bad) = Err cause ->
  LoadGatewayYamlFileStore path fs
  = Err (Errorf "could not decode private key from gateway store").
Proof.
  intros Hf Hr Hy Hgood Hbad.
  unfold LoadGatewayYamlFileStore, load, os_ReadFile. cbn [Path].
  rewrite Hf, Hr. unfold load_from, decode.
  rewrite Hy.
  now rewrite (@load_loop_first_bad_key _ _ good rest bad loaded cause
                 Hgood Hbad).
Qed.

(** X5: an [AddGateway] that returns an error leaves the store, path and
    list, as it was, whatever it did to the file. *)
Theorem AddGateway_error_keeps_store (store store' : GatewayYamlFileStore)
                                     (fs fs' : FileSystem) (localID : EUI64)
                                     (key : PrivateKey) (err : error) :
  AddGateway store fs localID key = (Some err, store', fs') ->
  store' = store.
Proof.
  unfold AddGateway.
  destruct (AddGateway_precheck store localID); try (now intros [= _ <- _]).
  destruct (yaml_Marshal _) as [encoded|e]; [|now intros [= _ <- _]].
  destruct (os_OpenFile_append fs (Path store)) as [fs1 [e|]];
    [now intros [= _ <- _]|].
  destruct (file_Write fs1 (Path store) encoded) as [fs2 [e|]];
    [now intros [= _ <- _]|].
  destruct (load store fs2) as [e s] eqn:Hload. intros [= -> -> _].
  now apply load_from_error in Hload.
Qed.

(** X6: whatever [AddGateway] returns, the file afterwards is the file
    before followed by bytes written, which are none or a prefix of the
    encoding of the new entry, and every other file is as it was: no byte
    that was in a file is changed or removed. *)
Theorem AddGateway_only_appends (store : GatewayYamlFileStore)
                                (fs : FileSystem) (localID : EUI64)
                                (key : PrivateKey) :
  let fs' := snd (AddGateway store fs localID key) in
  (exists written,
     contents fs' (Path store) = contents fs (Path store) ++ written /\
     (written = [] \/
      exists encoded n,
        yaml_Marshal [entry_of localID key] = Ok encoded /\
        written = firstn n encoded)) /\
  (forall p, p <> Path store -> fs_files fs' p = fs_files fs p).
Proof.
  assert (Hsame : (exists written,
             contents fs (Path store) = contents fs (Path store) ++ written /\
             (written = [] \/
              exists encoded n,
                yaml_Marshal [entry_of localID key] = Ok encoded /\
                written = firstn n encoded)) /\
           (forall p, p <> Path store -> fs_files fs p = fs_files fs p)).
  { split; [|reflexivity]. exists []. rewrite app_nil_r. auto. }
  unfold AddGateway. fold (entry_of localID key).
  destruct (AddGateway_precheck store localID); try exact Hsame.
  destruct (yaml_Marshal [entry_of localID key]) as [encoded|e] eqn:Henc;
    [|exact Hsame].
  destruct (os_OpenFile_append fs (Path store)) as [fs1 err1] eqn:Hopen.
  destruct (os_OpenFile_append_any _ _ Hopen) as (Hc1 & Ho1 & He1).
  destruct err1 as [e|].
  { destruct (He1 e eq_refl) as [_ ->]. exact Hsame. }
  destruct (file_Write fs1 (Path store) encoded) as [fs2 err2] eqn:Hwrite.
  destruct (file_Write_any _ _ _ Hwrite) as ([n Hc2] & Ho2 & _).
  assert (Hfs2 : (exists written,
             contents fs2 (Path store) = contents fs (Path store) ++ written /\
             (written = [] \/
              exists encoded0 n0,
                Ok encoded = Ok encoded0 /\ written = firstn n0 encoded0)) /\
           (forall p, p <> Path store -> fs_files fs2 p = fs_files fs p)).
  { split.
    - exists (firstn n encoded). rewrite Hc2, Hc1. split; [reflexivity|].
      right. now exists encoded, n.
    - intros p Hp. now rewrite Ho2, Ho1. }
  destruct err2 as [e|]; [exact Hfs2|].
  destruct (load store fs2) as [e s]. exact Hfs2.
Qed.

(** X7: [AddGateway] returns [ErrAlreadyExists] exactly when a record of the
    list has the local ID, and then it has changed neither the store nor any
    file (it has not opened the file), whatever the key and the file
    system. *)
Theorem AddGateway_AlreadyExists_iff (store : GatewayYamlFileStore)
                                     (fs : FileSystem) (localID : EUI64)
                                     (key : PrivateKey) :
  ((exists gw, In gw (Gateways store) /\ LocalGatewayID gw = localID) ->
   AddGateway store fs localID key = (Some ErrAlreadyExists, store, fs)) /\
  (fst (fst (AddGateway store fs localID key)) = Some ErrAlreadyExists ->
   exists gw, In gw (Gateways store) /\ LocalGatewayID gw = localID).
Proof.
  unfold AddGateway, AddGateway_precheck, Gateways.
  destruct (GatewayByLocalID_cases store localID)
    as [(gw & -> & Hin & Hid)|[-> Hnone]].
  - split; [reflexivity|]. intros _. now exists gw.
  - split.
    { intros (gw & Hin & Hid). now destruct (Hnone gw Hin). }
    cbn [errors_Is error_eqb orb].
    destruct (yaml_Marshal _) as [encoded|e]; [|discriminate].
    destruct (os_OpenFile_append fs (Path store)) as [fs1 err1] eqn:Hopen.
    destruct (os_OpenFile_append_any _ _ Hopen) as (_ & _ & He1).
    destruct err1 as [e|].
    { destruct (He1 e eq_refl) as [-> _]. discriminate. }
    destruct (file_Write fs1 (Path store) encoded) as [fs2 err2] eqn:Hwrite.
    destruct (file_Write_any _ _ _ Hwrite) as (_ & _ & He2).
    destruct err2 as [e|].
    { destruct (He2 e eq_refl) as [no ->]. discriminate. }
    destruct (load store fs2) as [[e|] s] eqn:Hload; [|discriminate].
    cbn [fst]. intros [= ->].
    apply load_from_error in Hload as (_ & Hr & _).
    now destruct (reload_error_not_others Hr) as [Hne _].
Qed.

(** X8: after a successful [AddGateway], constructing a store on the same
    path returns the store that [AddGateway] left: the list in memory is the
    list of the file. *)
Theorem AddGateway_then_reopen (store store1 : GatewayYamlFileStore)
                               (fs fs1 : FileSystem) (localID : EUI64)
                               (key : PrivateKey) :
  AddGateway store fs localID key = (None, store1, fs1) ->
  LoadGatewayYamlFileStore (Path store) fs1 = Ok store1.
Proof.
  unfold AddGateway.
  destruct (AddGateway_precheck store localID); try discriminate.
  destruct (yaml_Marshal _) as [encoded|e]; [|discriminate].
  destruct (os_OpenFile_append fs (Path store)) as [fs' [e|]] eqn:Hopen;
    [discriminate|].
  destruct (file_Write fs' (Path store) encoded) as [fs2 [e|]] eqn:Hwrite;
    [discriminate|].
  destruct (load store fs2) as [err s] eqn:Hload. intros [= -> -> ->].
  apply file_Write_ok in Hwrite as (f & _ & Hf2 & _).
  destruct (load_ok_decoded _ _ Hf2 Hload) as (Hr & Hpath & Hdec).
  unfold LoadGatewayYamlFileStore, load, os_ReadFile. cbn [Path].
  rewrite Hf2, Hr. unfold load_from. rewrite Hdec. cbn [Path].
  destruct store1 as [p l]. cbn [Path gateways] in *. now rewrite Hpath.
Qed.

(** X9: on a store in sync with its file, with the YAML codec appending the
    new entry to the file's, a successful [AddGateway] keeps every record
    in its place and puts one record, with the new local ID, at the end; so
    every lookup that returned a record returns the same record
    afterwards. *)
Theorem AddGateway_keeps_lookups (store store1 : GatewayYamlFileStore)
                                 (fs fs1 : FileSystem) (localID : EUI64)
                                 (key : PrivateKey) :
  in_sync store fs ->
  yaml_appends fs (Path store) (entry_of localID key) ->
  AddGateway store fs localID key = (None, store1, fs1) ->
  (exists g, Gateways store1 = Gateways store ++ [g] /\
             LocalGatewayID g = localID) /\
  (forall ident gw,
     Lookup store ident = Ok gw -> Lookup store1 ident = Ok gw).
Proof.
  intros Hsync Happ Hadd.
  destruct (@AddGateway_ok_list _ _ _ _ _ _ _ _ Hsync Happ Hadd)
    as (key' & g & _ & Hg & Hlist & _).
  apply NewGateway_ok in Hg as [Hid _]. split.
  - now exists g.
  - intros ident gw. rewrite !Lookup_scan, Hlist. apply scan_app_l.
Qed.

(** X10: when [AddGateway] fails with an error of its reload, the entry is
    in the file in full, behind what the file held, and constructing a store
    on the path fails with the same error. *)
Theorem AddGateway_reload_error_persists
    (store store' : GatewayYamlFileStore) (fs fs' : FileSystem)
    (localID : EUI64) (key : PrivateKey) (err : error) :
  AddGateway store fs localID key = (Some err, store', fs') ->
  reload_error err ->
  (exists encoded,
     yaml_Marshal [entry_of localID key] = Ok encoded /\
     contents fs' (Path store) = contents fs (Path store) ++ encoded) /\
  LoadGatewayYamlFileStore (Path store) fs' = Err err.
Proof.
  intros Hadd Hr.
  destruct (reload_error_not_others Hr) as (Hne & Hnp & Hnw).
  revert Hadd. unfold AddGateway. fold (entry_of localID key).
  destruct (AddGateway_precheck store localID) eqn:Hpre.
  - destruct (yaml_Marshal [entry_of localID key]) as [encoded|e].
    2:{ intros [= <- _ _]. now destruct (Hnw e). }
    destruct (os_OpenFile_append fs (Path store)) as [fs1 err1] eqn:Hopen.
    destruct (os_OpenFile_append_any _ _ Hopen) as (Hc1 & _ & He1).
    destruct err1 as [e|].
    { destruct (He1 e eq_refl) as [-> _]. intros [= <- _ _].
      now destruct (Hnp EACCES). }
    destruct (file_Write fs1 (Path store) encoded) as [fs2 err2] eqn:Hwrite.
    destruct err2 as [e|].
    { destruct (file_Write_any _ _ _ Hwrite) as (_ & _ & He2).
      destruct (He2 e eq_refl) as [no ->]. intros [= <- _ _].
      now destruct (Hnp no). }
    apply file_Write_ok in Hwrite as (f & Hf1 & Hf2 & _).
    destruct (load store fs2) as [e s] eqn:Hload. intros [= -> -> ->].
    apply load_from_error in Hload as (_ & _ & Hany). split.
    + exists encoded. split; [reflexivity|].
      rewrite <- Hc1. unfold contents. now rewrite Hf2, Hf1.
    + unfold LoadGatewayYamlFileStore, load. cbn [Path]. now rewrite Hany.
  - intros [= <- _ _]. now destruct Hne.
  - unfold AddGateway_precheck in Hpre.
    destruct (GatewayByLocalID_cases store localID)
      as [(gw & Hok & _)|[Hnf _]]; [rewrite Hok in Hpre | rewrite Hnf in Hpre];
      discriminate.
Qed.

End MoreProperties.

(** ** The further properties on the reference instance *)

Section MoreExamples.

Import Reference.

Lemma failed_ok :
  failed = (Some (Errorf "could not decode private key from gateway store"),
            failed_store, failed_fs).
Proof. vm_compute. reflexivity. Defined.

(** X2 on the reference instance: a local ID that the record does not
    have. *)
Lemma Lookup_Err_none_witness :
  ErrNotFound = ErrNotFound /\
  forall g, In g (Gateways (store_of [gw x01 x07])) ->
            ~ matches (LocalID (eui x02)) g.
Proof.
  apply (Lookup_Err_none (store_of [gw x01 x07]) (LocalID (eui x02))).
  vm_compute. reflexivity.
Defined.

(** X3 on the reference instance: the file with one entry. *)
Lemma LoadGatewayYamlFileStore_entries_witness :
  exists entries,
    yaml_Unmarshal one_entry = Ok entries /\
    Forall2 entry_loads entries (Gateways (store_of [gw x01 x07])) /\
    map LocalGatewayID (Gateways (store_of [gw x01 x07]))
    = map yaml_LocalID entries.
Proof.
  apply (@LoadGatewayYamlFileStore_entries key_type externals path
           (with_file one_entry) (store_of [gw x01 x07])
           {| file_data := one_entry; file_readable := true;
              file_writable := true |}).
  - reflexivity.
  - vm_compute. reflexivity.
Defined.

(** X4 on the reference instance: a good entry, one with a bad key, and a
    good one. *)
Lemma LoadGatewayYamlFileStore_first_bad_key_witness :
  LoadGatewayYamlFileStore path (with_file good_then_bad)
  = Err (Errorf "could not decode private key from gateway store").
Proof.
  apply (@LoadGatewayYamlFileStore_first_bad_key key_type externals path
           (with_file good_then_bad)
           {| file_data := good_then_bad; file_readable := true;
              file_writable := true |}
           [@entry_of key_type externals (eui x01) (key x07)]
           [@entry_of key_type externals (eui x01) (key x07)]
           {| yaml_LocalID := eui x01; yaml_PrivateKey := "not-a-key" |}
           [gw x01 x07] (LibError "invalid hex character for private key")).
  - reflexivity.
  - reflexivity.
  - vm_compute. reflexivity.
  - vm_compute. reflexivity.
  - vm_compute. reflexivity.
Defined.

(** X5 on the reference instance: the [AddGateway] of a key of 31 bytes. *)
Lemma AddGateway_error_keeps_store_witness : failed_store = store_of [].
Proof.
  apply (@AddGateway_error_keeps_store key_type externals (store_of [])
           failed_store no_files failed_fs (eui x01) short_key
           (Errorf "could not decode private key from gateway store")).
  exact failed_ok.
Defined.

(** X8 on the reference instance: the store after the first
    [AddGateway]. *)
Lemma AddGateway_then_reopen_witness :
  LoadGatewayYamlFileStore (Path (store_of [])) fs1 = Ok store1.
Proof.
  apply (@AddGateway_then_reopen key_type externals (store_of []) store1
           no_files fs1 (eui x01) (key x07)).
  exact added1_ok.
Defined.

(** X9 on the reference instance: the second [AddGateway]. *)
Lemma AddGateway_keeps_lookups_witness :
  (exists g, Gateways store2 = Gateways store1 ++ [g] /\
             LocalGatewayID g = eui x02) /\
  (forall ident g,
     Lookup store1 ident = Ok g -> Lookup store2 ident = Ok g).
Proof.
  apply (@AddGateway_keeps_lookups key_type externals store1 store2 fs1 fs2
           (eui x02) (key x09)).
  - exact (AddGateway_in_sync _ _ _ _ added1_ok).
  - exact appends_second.
  - exact added2_ok.
Defined.

(** X10 on the reference instance: the [AddGateway] of a key of 31 bytes
    leaves its entry in the file, and the store cannot be constructed. *)
Lemma AddGateway_reload_error_persists_witness :
  (exists encoded,
     yaml_Marshal [entry_of (eui x01) short_key] = Ok encoded /\
     contents failed_fs (Path (store_of []))
     = contents no_files (Path (store_of [])) ++ encoded) /\
  LoadGatewayYamlFileStore (Path (store_of [])) failed_fs
  = Err (Errorf "could not decode private key from gateway store").
Proof.
  apply (@AddGateway_reload_error_persists key_type externals (store_of [])
           failed_store no_files failed_fs (eui x01) short_key).
  - exact failed_ok.
  - right; right; left. reflexivity.
Defined.

End MoreExamples.
